(** * Gemini Live streaming session client

    A shallow embedding of [src/gemini-live/gemini-live-client.ts]
    (class [GeminiLiveClient]) and the properties of its connection
    life cycle, outbound queue, inbound dispatch and reconnection logic.

    The client is an event-driven object: public methods are called by
    the application, and the callbacks registered on the WebSocket and
    with [setTimeout] are run by the host, one at a time.  Each of them
    is a function on an explicit state; the state also holds the
    transport's sockets, the pending timers and the ordered log of what
    the client did (frames written, events emitted, sockets opened). *)

From Stdlib Require Import ZArith List String Floats Lia.
From stdpp Require Import base list.

Open Scope Z_scope.
Open Scope string_scope.
Open Scope list_scope.

(** ** Configuration (interface [GeminiLiveConfig], constructor) *)

Inductive Level := low | medium | high.

(** The caller's configuration: every field but [apiKey] is optional
    ([None] is JavaScript's [undefined]).  Numbers are IEEE doubles. *)
Record GeminiLiveConfig := {
  apiKey : string;
  model : option string;
  thinkingLevel : option Level;
  mediaResolution : option Level;
  vadEnabled : option bool;
  interruptionThreshold : option float;
  searchGrounding : option bool
}.

(** [Required<GeminiLiveConfig>], the field [this.config]. *)
Record ResolvedConfig := {
  cfg_apiKey : string;
  cfg_model : string;
  cfg_thinkingLevel : Level;
  cfg_mediaResolution : Level;
  cfg_vadEnabled : bool;
  cfg_interruptionThreshold : float;
  cfg_searchGrounding : bool
}.

(** Truthiness of a JavaScript number: [0], [-0] and [NaN] are falsy. *)
Definition number_falsy (x : float) : bool :=
  (PrimFloat.eqb x 0%float || PrimFloat.is_nan x)%bool.

(** Truthiness of a string: only the empty string is falsy. *)
Definition string_falsy (s : string) : bool :=
  match s with EmptyString => true | _ => false end.

(** [x || d] at the types the constructor uses it. *)
Definition or_string (x : option string) (d : string) : string :=
  match x with
  | Some s => if string_falsy s then d else s
  | None => d
  end.

Definition or_level (x : option Level) (d : Level) : Level :=
  match x with Some l => l | None => d end.

Definition or_number (x : option float) (d : float) : float :=
  match x with
  | Some n => if number_falsy n then d else n
  | None => d
  end.

Definition or_bool (x : option bool) (d : bool) : bool :=
  match x with
  | Some b => if b then true else d
  | None => d
  end.

(** [x !== false] *)
Definition not_false (x : option bool) : bool :=
  match x with Some false => false | _ => true end.

Definition resolve_config (c : GeminiLiveConfig) : ResolvedConfig :=
  {| cfg_apiKey := apiKey c;
     cfg_model := or_string (model c) "gemini-3.0-live";
     cfg_thinkingLevel := or_level (thinkingLevel c) medium;
     cfg_mediaResolution := or_level (mediaResolution c) medium;
     cfg_vadEnabled := not_false (vadEnabled c);
     cfg_interruptionThreshold := or_number (interruptionThreshold c) 0.5%float;
     cfg_searchGrounding := or_bool (searchGrounding c) false |}.

(** ** Messages and frames *)

Inductive MessageType := text | audio | video | function_call.

(** The [data] field of a [StreamMessage].  A [Buffer] is kept as the
    byte string it holds; the wire form is its base64 text. *)
Inductive Payload :=
| TextData (s : string)
| VideoData (mimeType : string) (frame : string)
| AudioData (sampleRate : Z) (chunk : string)
| CallData (name : string) (args : string).

Record StreamMessage := {
  type : MessageType;
  data : Payload;
  timestamp : Z;
  msg_sessionId : option string
}.

(** The object built by [sendConfiguration]. *)
Record ConfigureFrame := {
  thinking_level : Level;
  media_resolution : Level;
  vad_enabled : bool;
  interruption_threshold : float;
  search_grounding : bool;
  code_execution : bool;
  function_calling : bool
}.

Definition configure_frame (c : ResolvedConfig) : ConfigureFrame :=
  {| thinking_level := cfg_thinkingLevel c;
     media_resolution := cfg_mediaResolution c;
     vad_enabled := cfg_vadEnabled c;
     interruption_threshold := cfg_interruptionThreshold c;
     search_grounding := cfg_searchGrounding c;
     code_execution := true;
     function_calling := true |}.

(** What is handed to [ws.send] (before [JSON.stringify]). *)
Inductive Frame :=
| FConfigure (c : ConfigureFrame)
| FMessage (m : StreamMessage)
| FInterrupt (now : Z).

(** An inbound frame after [JSON.parse]: either the parse (or a field
    access on the parsed value) throws, or it is an object of which the
    handler reads these fields. *)
Record InMessage := {
  in_sessionId : option string;
  in_type : option string;
  in_content : option string;
  in_function_name : option string;
  in_arguments : option string
}.

Inductive Inbound := Malformed | Parsed (m : InMessage).

(** ** Events raised through [EventEmitter.emit] *)

Inductive ErrorKind := TransportError | ParseError | RemoteError (content : option string).

Inductive Emitted :=
| EvError (k : ErrorKind)
| EvDisconnect
| EvSession (sid : string)
| EvText (content : option string)
| EvAudio (content : string)
| EvFunctionCall (name args : option string)
| EvThinking (content : option string)
| EvChunk (m : InMessage)
| EvMessage (m : InMessage)
| EvSent (m : StreamMessage)
| EvMaxReconnectReached
| EvReconnect.

(** ** Transport sockets and timers *)

Inductive ReadyState := Connecting | Open | Closing | Closed.

(** Who called [connect()]: the application, or the timer callback of
    [attemptReconnect] (which emits ['reconnect'] when its [await]
    returns). *)
Inductive Origin := ByCaller | ByReconnect.

Inductive PromiseState := Pending | Resolved | Rejected.

(** One [new WebSocket(...)] together with the promise of the
    [connect()] call that created it. *)
Record Socket := {
  ready : ReadyState;
  origin : Origin;
  promise : PromiseState
}.

Inductive TimerKind :=
| ConnectTimeout (h : nat)   (* connect(): reject after 10 seconds *)
| ReconnectTimer.            (* attemptReconnect(): call connect() *)

Record Timer := {
  kind : TimerKind;
  delay : Z;
  pending : bool
}.

(** The ordered log of the client's actions on the outside world. *)
Inductive Effect :=
| WsNew (h : nat)
| WsSend (h : nat) (f : Frame)
| WsClose (h : nat)
| Emit (e : Emitted)
| SetTimeout (id : nat) (d : Z) (k : TimerKind).

(** ** The client

    The fields of [GeminiLiveClient] under their own names; [ws] is the
    index of the current socket in [sockets], which lists every socket
    ever created (a socket replaced in [this.ws] stays alive and keeps
    its callbacks, which act on the same client). *)
Record State := {
  ws : option nat;
  config : ResolvedConfig;
  sessionId : option string;
  isConnected : bool;
  messageQueue : list StreamMessage;
  reconnectAttempts : Z;
  maxReconnectAttempts : Z;
  sockets : list Socket;
  timers : list Timer;
  trace : list Effect
}.

Definition constructor (c : GeminiLiveConfig) : State :=
  {| ws := None;
     config := resolve_config c;
     sessionId := None;
     isConnected := false;
     messageQueue := [];
     reconnectAttempts := 0;
     maxReconnectAttempts := 3;
     sockets := [];
     timers := [];
     trace := [] |}.

(** Field updates ([this.f = v]). *)
Definition set_ws (v : option nat) (s : State) : State :=
  {| ws := v; config := config s; sessionId := sessionId s;
     isConnected := isConnected s; messageQueue := messageQueue s;
     reconnectAttempts := reconnectAttempts s;
     maxReconnectAttempts := maxReconnectAttempts s;
     sockets := sockets s; timers := timers s; trace := trace s |}.

Definition set_sessionId (v : option string) (s : State) : State :=
  {| ws := ws s; config := config s; sessionId := v;
     isConnected := isConnected s; messageQueue := messageQueue s;
     reconnectAttempts := reconnectAttempts s;
     maxReconnectAttempts := maxReconnectAttempts s;
     sockets := sockets s; timers := timers s; trace := trace s |}.

Definition set_isConnected (v : bool) (s : State) : State :=
  {| ws := ws s; config := config s; sessionId := sessionId s;
     isConnected := v; messageQueue := messageQueue s;
     reconnectAttempts := reconnectAttempts s;
     maxReconnectAttempts := maxReconnectAttempts s;
     sockets := sockets s; timers := timers s; trace := trace s |}.

Definition set_messageQueue (v : list StreamMessage) (s : State) : State :=
  {| ws := ws s; config := config s; sessionId := sessionId s;
     isConnected := isConnected s; messageQueue := v;
     reconnectAttempts := reconnectAttempts s;
     maxReconnectAttempts := maxReconnectAttempts s;
     sockets := sockets s; timers := timers s; trace := trace s |}.

Definition set_reconnectAttempts (v : Z) (s : State) : State :=
  {| ws := ws s; config := config s; sessionId := sessionId s;
     isConnected := isConnected s; messageQueue := messageQueue s;
     reconnectAttempts := v;
     maxReconnectAttempts := maxReconnectAttempts s;
     sockets := sockets s; timers := timers s; trace := trace s |}.

Definition set_sockets (v : list Socket) (s : State) : State :=
  {| ws := ws s; config := config s; sessionId := sessionId s;
     isConnected := isConnected s; messageQueue := messageQueue s;
     reconnectAttempts := reconnectAttempts s;
     maxReconnectAttempts := maxReconnectAttempts s;
     sockets := v; timers := timers s; trace := trace s |}.

Definition set_timers (v : list Timer) (s : State) : State :=
  {| ws := ws s; config := config s; sessionId := sessionId s;
     isConnected := isConnected s; messageQueue := messageQueue s;
     reconnectAttempts := reconnectAttempts s;
     maxReconnectAttempts := maxReconnectAttempts s;
     sockets := sockets s; timers := v; trace := trace s |}.

(** Append one action to the log. *)
Definition log (e : Effect) (s : State) : State :=
  {| ws := ws s; config := config s; sessionId := sessionId s;
     isConnected := isConnected s; messageQueue := messageQueue s;
     reconnectAttempts := reconnectAttempts s;
     maxReconnectAttempts := maxReconnectAttempts s;
     sockets := sockets s; timers := timers s; trace := trace s ++ [e] |}.

(** [this.emit(name, ...)]: the event is recorded; listeners only
    observe (and one is registered for ['error'], so that emitting it
    does not throw). *)
Definition emit (e : Emitted) (s : State) : State := log (Emit e) s.

(** ** Outcomes

    A method or callback either returns, or throws (for an [async]
    method: returns a rejected promise) after the state changes it made,
    or never returns. *)
Inductive Outcome :=
| Done (s : State)
| Threw (s : State)
| Hang.

Definition bind (o : Outcome) (k : State -> Outcome) : Outcome :=
  match o with
  | Done s => k s
  | Threw s => Threw s
  | Hang => Hang
  end.

(** ** The transport ([ws]'s [WebSocket])

    The [ws] package is not part of the repository; what the client
    relies on is taken from section 4.1 of the specification: a socket
    is connecting, then open, then closing, then closed; it reports one
    [onOpen], then messages, then one terminal [onClose]; and a write
    to a socket that is not open fails. *)
Definition socket_ready (h : nat) (s : State) : option ReadyState :=
  ready <$> sockets s !! h.

Definition is_open (h : nat) (s : State) : bool :=
  match socket_ready h s with Some Open => true | _ => false end.

Definition set_ready (r : ReadyState) (k : Socket) : Socket :=
  {| ready := r; origin := origin k; promise := promise k |}.

Definition set_promise (p : PromiseState) (k : Socket) : Socket :=
  {| ready := ready k; origin := origin k; promise := p |}.

(** Updates of one socket, or one timer, in place. *)
Definition mark_ready (h : nat) (r : ReadyState) (s : State) : State :=
  set_sockets (alter (set_ready r) h (sockets s)) s.

Definition mark_promise (h : nat) (p : PromiseState) (s : State) : State :=
  set_sockets (alter (set_promise p) h (sockets s)) s.

Definition fired (t : Timer) : Timer :=
  {| kind := kind t; delay := delay t; pending := false |}.

Definition mark_fired (id : nat) (s : State) : State :=
  set_timers (alter fired id (timers s)) s.

(** Modelled from the spec: [send(handle, bytes)] of the transport,
    which "fails with [SendError] if not open"; the exception reaches
    the caller of [ws.send]. *)
Definition ws_send (h : nat) (f : Frame) (s : State) : Outcome :=
  if is_open h s then Done (log (WsSend h f) s) else Threw s.

(** Modelled from the spec: [close(handle)] of the transport starts
    the closing of a socket that is connecting or open; its terminal
    [onClose] comes later, as an event. *)
Definition ws_close (h : nat) (s : State) : State :=
  match sockets s !! h with
  | Some k =>
      match ready k with
      | Connecting | Open => log (WsClose h) (mark_ready h Closing s)
      | Closing | Closed => log (WsClose h) s
      end
  | None => s
  end.

(** [setTimeout(callback, d)]: the new timer's id is its index. *)
Definition setTimeout (k : TimerKind) (d : Z) (s : State) : State :=
  let id := length (timers s) in
  log (SetTimeout id d k)
      (set_timers (timers s ++ [{| kind := k; delay := d; pending := true |}]) s).

(** [resolve()] and [reject(...)] of the promise made by the [connect()]
    call that created socket [h]; a settled promise stays as it is.
    The timer callback of [attemptReconnect] awaits that promise and
    emits ['reconnect'] when it resolves. *)
Definition resolve (h : nat) (s : State) : State :=
  match sockets s !! h with
  | Some k =>
      match promise k with
      | Pending =>
          let s' := mark_promise h Resolved s in
          match origin k with
          | ByReconnect => emit EvReconnect s'
          | ByCaller => s'
          end
      | _ => s
      end
  | None => s
  end.

Definition reject (h : nat) (s : State) : State :=
  match sockets s !! h with
  | Some k =>
      match promise k with
      | Pending => mark_promise h Rejected s
      | _ => s
      end
  | None => s
  end.

(** ** Methods of [GeminiLiveClient] *)

(** [sendConfiguration()] *)
Definition sendConfiguration (s : State) : Outcome :=
  match ws s with
  | Some h =>
      if isConnected s
      then ws_send h (FConfigure (configure_frame (config s))) s
      else Done s
  | None => Done s
  end.

(** [sendMessage(message)]: queue when not connected; otherwise write,
    and on a failed write queue the message and rethrow. *)
Definition sendMessage (m : StreamMessage) (s : State) : Outcome :=
  match ws s with
  | Some h =>
      if isConnected s
      then match ws_send h (FMessage m) s with
           | Done s' => Done (emit (EvSent m) s')
           | Threw s' => Threw (set_messageQueue (messageQueue s' ++ [m]) s')
           | Hang => Hang
           end
      else Done (set_messageQueue (messageQueue s ++ [m]) s)
  | None => Done (set_messageQueue (messageQueue s ++ [m]) s)
  end.

(** [this.sessionId || undefined] *)
Definition session_stamp (s : State) : option string :=
  match sessionId s with
  | Some sid => if string_falsy sid then None else Some sid
  | None => None
  end.

(** [sendText], [streamVideo], [streamAudio], [callFunction]; [now] is
    [Date.now()], and an omitted [mimeType] or [sampleRate] takes its
    default. *)
Definition sendText (t : string) (now : Z) (s : State) : Outcome :=
  sendMessage {| type := text; data := TextData t; timestamp := now;
                 msg_sessionId := session_stamp s |} s.

Definition streamVideo (frameBuffer : string) (mimeType : option string)
    (now : Z) (s : State) : Outcome :=
  sendMessage {| type := video;
                 data := VideoData (default "image/jpeg" mimeType) frameBuffer;
                 timestamp := now; msg_sessionId := session_stamp s |} s.

Definition streamAudio (audioBuffer : string) (sampleRate : option Z)
    (now : Z) (s : State) : Outcome :=
  sendMessage {| type := audio;
                 data := AudioData (default 16000 sampleRate) audioBuffer;
                 timestamp := now; msg_sessionId := session_stamp s |} s.

Definition callFunction (name args : string) (now : Z) (s : State) : Outcome :=
  sendMessage {| type := function_call; data := CallData name args;
                 timestamp := now; msg_sessionId := session_stamp s |} s.

(** [processQueue()]: the [while] loop, one iteration per unit of fuel;
    a rejected [sendMessage] promise is only logged ([.catch]). *)
Fixpoint processQueue (fuel : nat) (s : State) : Outcome :=
  match fuel with
  | O => Hang
  | S fuel' =>
      match messageQueue s with
      | [] => Done s
      | m :: rest =>
          if isConnected s
          then match sendMessage m (set_messageQueue rest s) with
               | Done s' => processQueue fuel' s'
               | Threw s' => processQueue fuel' s'
               | Hang => Hang
               end
          else Done s
      end
  end.

(** [interrupt()] *)
Definition interrupt (now : Z) (s : State) : Outcome :=
  match ws s with
  | Some h => if isConnected s then ws_send h (FInterrupt now) s else Done s
  | None => Done s
  end.

(** [attemptReconnect()] *)
Definition attemptReconnect (s : State) : State :=
  if reconnectAttempts s >=? maxReconnectAttempts s
  then emit EvMaxReconnectReached s
  else
    let s' := set_reconnectAttempts (reconnectAttempts s + 1) s in
    let d := 2 ^ reconnectAttempts s' * 1000 in
    setTimeout ReconnectTimer d s'.

(** [connect()]: the synchronous part of the promise executor. *)
Definition connect (o : Origin) (s : State) : State :=
  let h := length (sockets s) in
  let s1 := set_sockets
              (sockets s ++ [{| ready := Connecting; origin := o; promise := Pending |}]) s in
  let s2 := log (WsNew h) (set_ws (Some h) s1) in
  setTimeout (ConnectTimeout h) 10000 s2.

(** [disconnect()] *)
Definition disconnect (s : State) : State :=
  let s1 := match ws s with
            | Some h => set_ws None (ws_close h (set_isConnected false s))
            | None => s
            end in
  set_messageQueue [] (set_sessionId None s1).

(** [handleMessage(data)]: the session id is taken from the first frame
    that carries one while none is set; then the frame is dispatched on
    its [type].  Anything thrown inside ([JSON.parse], or [Buffer.from]
    on a missing [content]) is caught and raised as an ['error'] event. *)
Definition adopt_session (m : InMessage) (s : State) : State :=
  match in_sessionId m with
  | Some sid =>
      if string_falsy sid then s
      else match session_stamp s with
           | Some _ => s
           | None => emit (EvSession sid) (set_sessionId (Some sid) s)
           end
  | None => s
  end.

Definition dispatch_event (m : InMessage) : Emitted :=
  match in_type m with
  | Some "text" => EvText (in_content m)
  | Some "audio" =>
      match in_content m with
      | Some c => EvAudio c
      | None => EvError ParseError
      end
  | Some "function_call" => EvFunctionCall (in_function_name m) (in_arguments m)
  | Some "thinking" => EvThinking (in_content m)
  | Some "error" => EvError (RemoteError (in_content m))
  | Some "chunk" => EvChunk m
  | _ => EvMessage m
  end.

Definition dispatch (m : InMessage) (s : State) : State :=
  emit (dispatch_event m) s.

Definition handleMessage (d : Inbound) (s : State) : State :=
  match d with
  | Malformed => emit (EvError ParseError) s
  | Parsed m => dispatch m (adopt_session m s)
  end.

(** ** The callbacks registered by [connect()] on socket [h]

    They are closures over the client, not over the socket: they read
    and write [this.ws], [this.isConnected], ... whatever socket runs
    them. *)

(** [ws.on('open', ...)] *)
Definition on_open (h : nat) (s : State) : Outcome :=
  let s1 := set_reconnectAttempts 0 (set_isConnected true s) in
  bind (sendConfiguration s1) (fun s2 =>
  bind (processQueue (S (length (messageQueue s2))) s2) (fun s3 =>
  Done (resolve h s3))).

(** [ws.on('error', ...)] *)
Definition on_error (h : nat) (s : State) : State :=
  let s1 := emit (EvError TransportError) s in
  if isConnected s1 then s1 else reject h s1.

(** [ws.on('close', ...)] *)
Definition on_close (s : State) : State :=
  attemptReconnect (emit EvDisconnect (set_isConnected false s)).

(** The callback of the 10 second timer of [connect()]. *)
Definition on_connect_timeout (h : nat) (s : State) : State :=
  if isConnected s then s else reject h s.

(** The callback of the timer of [attemptReconnect()]; the ['reconnect']
    event is raised by [resolve] when the awaited promise resolves, and
    a rejection is caught and logged. *)
Definition on_reconnect_timer (s : State) : State :=
  connect ByReconnect s.

(** ** The event loop

    One step is one method call by the application or one callback run
    by the host.  A socket event is delivered only in a state of the
    socket in which the transport can produce it (section 4.1: [onOpen]
    once, for a connecting socket; messages from then until the
    terminal [onClose]; an error at any time before that); otherwise
    the step does nothing.  A timer fires once. *)
Inductive Event :=
| CallConnect
| CallSendText (t : string) (now : Z)
| CallStreamVideo (frameBuffer : string) (mimeType : option string) (now : Z)
| CallStreamAudio (audioBuffer : string) (sampleRate : option Z) (now : Z)
| CallFunction (name args : string) (now : Z)
| CallInterrupt (now : Z)
| CallDisconnect
| SockOpen (h : nat)
| SockMessage (h : nat) (d : Inbound)
| SockError (h : nat)
| SockClose (h : nat)
| TimerFire (id : nat).

Definition step (e : Event) (s : State) : Outcome :=
  match e with
  | CallConnect => Done (connect ByCaller s)
  | CallSendText t now => sendText t now s
  | CallStreamVideo b m now => streamVideo b m now s
  | CallStreamAudio b r now => streamAudio b r now s
  | CallFunction n a now => callFunction n a now s
  | CallInterrupt now => interrupt now s
  | CallDisconnect => Done (disconnect s)
  | SockOpen h =>
      match socket_ready h s with
      | Some Connecting => on_open h (mark_ready h Open s)
      | _ => Done s
      end
  | SockMessage h d =>
      match socket_ready h s with
      | Some Open | Some Closing => Done (handleMessage d s)
      | _ => Done s
      end
  | SockError h =>
      match socket_ready h s with
      | Some Connecting | Some Open => Done (on_error h (mark_ready h Closing s))
      | Some Closing => Done (on_error h s)
      | _ => Done s
      end
  | SockClose h =>
      match socket_ready h s with
      | Some Connecting | Some Open | Some Closing =>
          Done (on_close (mark_ready h Closed s))
      | _ => Done s
      end
  | TimerFire id =>
      match timers s !! id with
      | Some t =>
          if pending t
          then match kind t with
               | ConnectTimeout h => Done (on_connect_timeout h (mark_fired id s))
               | ReconnectTimer => Done (on_reconnect_timer (mark_fired id s))
               end
          else Done s
      | None => Done s
      end
  end.

Definition is_call (e : Event) : bool :=
  match e with
  | CallConnect | CallSendText _ _ | CallStreamVideo _ _ _
  | CallStreamAudio _ _ _ | CallFunction _ _ _ | CallInterrupt _
  | CallDisconnect => true
  | _ => false
  end.

(** A run of the event loop.  What a method throws goes to the calling
    application and the client lives on; what a callback throws is
    uncaught and ends the run. *)
Fixpoint run (es : list Event) (s : State) : Outcome :=
  match es with
  | [] => Done s
  | e :: es' =>
      match step e s with
      | Done s' => run es' s'
      | Threw s' => if is_call e then run es' s' else Threw s'
      | Hang => Hang
      end
  end.


(** ** Reading the log *)

(** All frames written, with their socket, in order. *)
Definition writes (t : list Effect) : list (nat * Frame) :=
  omap (fun e => match e with WsSend h f => Some (h, f) | _ => None end) t.

(** The frames written to socket [h], in order. *)
Definition wire (h : nat) (t : list Effect) : list Frame :=
  omap (fun p : nat * Frame => if Nat.eqb h p.1 then Some p.2 else None) (writes t).

(** The events emitted, in order. *)
Definition emitted (t : list Effect) : list Emitted :=
  omap (fun e => match e with Emit ev => Some ev | _ => None end) t.

(** The sockets created, in order. *)
Definition opened (t : list Effect) : list nat :=
  omap (fun e => match e with WsNew h => Some h | _ => None end) t.

Definition is_max_reconnect (e : Emitted) : bool :=
  match e with EvMaxReconnectReached => true | _ => false end.

Definition is_reconnect (e : Emitted) : bool :=
  match e with EvReconnect => true | _ => false end.

Definition is_session (e : Emitted) : bool :=
  match e with EvSession _ => true | _ => false end.


Definition count {A} (p : A -> bool) (l : list A) : nat :=
  length (List.filter p l).

(** The delays of the reconnection timers set, in order. *)
Definition reconnect_delays (t : list Effect) : list Z :=
  omap (fun e => match e with
                 | SetTimeout _ d ReconnectTimer => Some d
                 | _ => None
                 end) t.


(** The ['session'] events raised, in order. *)
Definition sessions (t : list Effect) : list Emitted :=
  List.filter is_session (emitted t).

(** A reconnection timer that has not fired yet. *)
Definition reconnect_pending (t : Timer) : bool :=
  match kind t with
  | ReconnectTimer => pending t
  | ConnectTimeout _ => false
  end.

(** The log entries of one message written from the queue or directly. *)
Definition sent_log (h : nat) (m : StreamMessage) : list Effect :=
  [WsSend h (FMessage m); Emit (EvSent m)].

Definition drain_log (h : nat) (q : list StreamMessage) : list Effect :=
  concat (map (sent_log h) q).

(** ** Notions used in the statements *)

(** The state a run ends in (the starting state if it does not end). *)
Definition after (es : list Event) (s : State) : State :=
  match run es s with
  | Done s' | Threw s' => s'
  | Hang => s
  end.

(** [same_client s s']: everything but the queue and the log agrees. *)
Definition same_client (s s' : State) : Prop :=
  ws s' = ws s /\ config s' = config s /\ sessionId s' = sessionId s
  /\ isConnected s' = isConnected s
  /\ reconnectAttempts s' = reconnectAttempts s
  /\ maxReconnectAttempts s' = maxReconnectAttempts s
  /\ sockets s' = sockets s /\ timers s' = timers s.


Definition message_of (stamp : option string) (e : Event) : option StreamMessage :=
  match e with
  | CallSendText t now =>
      Some {| type := text; data := TextData t; timestamp := now;
              msg_sessionId := stamp |}
  | CallStreamVideo b m now =>
      Some {| type := video; data := VideoData (default "image/jpeg" m) b;
              timestamp := now; msg_sessionId := stamp |}
  | CallStreamAudio b r now =>
      Some {| type := audio; data := AudioData (default 16000 r) b;
              timestamp := now; msg_sessionId := stamp |}
  | CallFunction n a now =>
      Some {| type := function_call; data := CallData n a;
              timestamp := now; msg_sessionId := stamp |}
  | _ => None
  end.


Definition text_message (t : string) (now : Z) (stamp : option string) : StreamMessage :=
  {| type := text; data := TextData t; timestamp := now; msg_sessionId := stamp |}.



(** The ['close'] event can be delivered for socket [h]. *)
Definition can_close (h : nat) (s : State) : bool :=
  match socket_ready h s with
  | Some Connecting | Some Open | Some Closing => true
  | _ => false
  end.

(** Whether resolving the promise of socket [h] raises ['reconnect']:
    the promise is still pending and was made by the reconnection
    timer. *)
Definition announces (h : nat) (s : State) : bool :=
  match sockets s !! h with
  | Some k =>
      match promise k, origin k with
      | Pending, ByReconnect => true
      | _, _ => false
      end
  | None => false
  end.






(** [n] reconnection attempts in a row that fail: the timer [t] fires,
    [connect()] creates socket [h], and that socket closes without
    having opened; the next timer and socket have the next indices. *)
Fixpoint failed_attempts (n h t : nat) : list Event :=
  match n with
  | O => []
  | S n' => TimerFire t :: SockClose h :: failed_attempts n' (S h) (S (S t))
  end.

(** The delays of [n] attempts in a row after the counter stood at [a]. *)
Fixpoint backoff_delays (a : Z) (n : nat) : list Z :=
  match n with
  | O => []
  | S n' => 2 ^ (a + 1) * 1000 :: backoff_delays (a + 1) n'
  end.

(** ** Sample inputs *)

(** A configuration that sets the interruption threshold to [0] and
    leaves everything else out. *)
Definition config_zero_threshold : GeminiLiveConfig :=
  {| apiKey := "key"; model := None; thinkingLevel := None;
     mediaResolution := None; vadEnabled := None;
     interruptionThreshold := Some 0%float; searchGrounding := None |}.

(** The configuration of the example in the source file. *)
Definition sample_config : GeminiLiveConfig :=
  {| apiKey := "key"; model := Some "gemini-3.0-live"; thinkingLevel := Some high;
     mediaResolution := Some medium; vadEnabled := None;
     interruptionThreshold := None; searchGrounding := None |}.



(** A client whose first connection (socket 0) has been open for more
    than ten seconds: the timeout timer of [connect()] (timer 0) has
    fired, to no effect. *)
Definition established : State :=
  after [CallConnect; SockOpen 0; TimerFire 0] (constructor sample_config).

(** The connection drops and the three reconnection attempts all fail.
    Timers 1, 3 and 5 are the reconnection timers (2 s, 4 s and 8 s);
    timer 2 is the timeout of the first attempt, due before timer 5. *)
Definition three_closes : list Event :=
  [SockClose 0; TimerFire 1; SockClose 1; TimerFire 3; SockClose 2].

Definition outage : list Event :=
  three_closes ++ [TimerFire 2; TimerFire 5; SockClose 3].


(** The established connection has dropped and the first reconnection
    (timer 1, 2 seconds) is pending. *)
Definition backing_off : State := after [SockClose 0] established.

(** A connected client whose current socket is not open: [connect()]
    was called again on the established client, and socket 1 is still
    connecting. *)
Definition reconnecting_by_hand : State := after [CallConnect] established.

(** An inbound text frame that carries the session id [sid]. *)
Definition frame_of_session (sid content : string) : Inbound :=
  Parsed {| in_sessionId := Some sid; in_type := Some "text";
            in_content := Some content; in_function_name := None;
            in_arguments := None |}.

(** The connection drops, the first reconnection succeeds (socket 1),
    and the new remote session announces itself. *)
Definition resumed : list Event :=
  [SockClose 0; TimerFire 1; SockOpen 1;
   SockMessage 1 (frame_of_session "session-2" "hello again")].

(** * Properties *)

(** ** The constructor *)

Lemma or_number_falsy (x d : float) :
  number_falsy x = true -> or_number (Some x) d = d.
Proof. intros H. unfold or_number. now rewrite H. Qed.

Lemma not_false_spec (x : option bool) : not_false x = false <-> x = Some false.
Proof. destruct x as [[|]|]; simpl; split; congruence. Qed.

(** C10. A configuration whose [interruptionThreshold] is [0] gives a
    client whose effective threshold, and the one it sends in the
    configuration frame, is the default [0.5]; voice activity detection,
    by contrast, is off exactly when [vadEnabled] is an explicit
    [false]. *)
Theorem constructor_threshold_zero (c : GeminiLiveConfig) :
  interruptionThreshold c = Some 0%float ->
  cfg_interruptionThreshold (config (constructor c)) = 0.5%float
  /\ interruption_threshold (configure_frame (config (constructor c))) = 0.5%float
  /\ (cfg_vadEnabled (config (constructor c)) = false <-> vadEnabled c = Some false).
Proof.
  intros H. simpl. rewrite H.
  repeat split; try reflexivity; apply not_false_spec.
Qed.

Lemma constructor_threshold_zero_witness :
  interruptionThreshold config_zero_threshold = Some 0%float
  /\ cfg_interruptionThreshold (config (constructor config_zero_threshold)) = 0.5%float.
Proof.
  split; [reflexivity|].
  apply (constructor_threshold_zero config_zero_threshold). reflexivity.
Defined.

(** Every falsy number (also [-0] and [NaN]) is replaced alike. *)
Lemma constructor_threshold_falsy (c : GeminiLiveConfig) (x : float) :
  interruptionThreshold c = Some x -> number_falsy x = true ->
  cfg_interruptionThreshold (config (constructor c)) = 0.5%float.
Proof. intros H F. simpl. rewrite H. now apply or_number_falsy. Qed.

(** ** What a send and the queue drain leave untouched *)

Lemma same_client_refl s : same_client s s.
Proof. repeat split. Qed.

Lemma same_client_trans s1 s2 s3 :
  same_client s1 s2 -> same_client s2 s3 -> same_client s1 s3.
Proof.
  unfold same_client. intros (?&?&?&?&?&?&?&?) (?&?&?&?&?&?&?&?).
  repeat split; congruence.
Qed.

Lemma same_client_is_open s s' h : same_client s s' -> is_open h s' = is_open h s.
Proof.
  intros (_&_&_&_&_&_&E&_). unfold is_open, socket_ready. now rewrite E.
Qed.

(** The three ways [sendMessage] can go. *)
Lemma sendMessage_queued m s :
  isConnected s = false \/ ws s = None ->
  sendMessage m s = Done (set_messageQueue (messageQueue s ++ [m]) s).
Proof.
  intros [H|H]; unfold sendMessage; rewrite H; [|reflexivity].
  now destruct (ws s).
Qed.

Lemma sendMessage_written m s h :
  isConnected s = true -> ws s = Some h -> is_open h s = true ->
  sendMessage m s = Done (emit (EvSent m) (log (WsSend h (FMessage m)) s)).
Proof.
  intros C W O. unfold sendMessage, ws_send. now rewrite W, C, O.
Qed.

Lemma sendMessage_failed m s h :
  isConnected s = true -> ws s = Some h -> is_open h s = false ->
  sendMessage m s = Threw (set_messageQueue (messageQueue s ++ [m]) s).
Proof.
  intros C W O. unfold sendMessage, ws_send. now rewrite W, C, O.
Qed.


(** The drain loop on an open current socket writes the whole queue, in
    order, and returns; any larger amount of fuel gives the same. *)
Lemma processQueue_open (h : nat) (q : list StreamMessage) :
  forall (s : State) (k : nat),
    messageQueue s = q -> isConnected s = true -> ws s = Some h ->
    is_open h s = true ->
    exists s', processQueue (S (length q) + k) s = Done s'
               /\ same_client s s' /\ messageQueue s' = []
               /\ trace s' = trace s ++ drain_log h q.
Proof.
  induction q as [|m rest IH]; intros s k Q C W O.
  - exists s. simpl. rewrite Q. repeat split. now rewrite app_nil_r.
  - cbn [length Nat.add processQueue]. rewrite Q, C.
    rewrite (sendMessage_written m _ h) by assumption.
    set (s1 := emit (EvSent m) (log (WsSend h (FMessage m)) (set_messageQueue rest s))).
    destruct (IH s1 k) as (s' & R & Hsame & Hq & Ht); try reflexivity; try assumption.
    exists s'. split; [exact R|]. split; [|split; [exact Hq|]].
    + eapply same_client_trans; [|exact Hsame]. repeat split.
    + rewrite Ht. unfold drain_log. simpl. now rewrite <- !app_assoc.
Qed.

(** With the connected flag set but no open current socket, every
    iteration puts the message back and the loop never ends. *)
Lemma processQueue_stuck (n : nat) :
  forall s : State,
    isConnected s = true -> messageQueue s <> [] ->
    (ws s = None \/ exists h, ws s = Some h /\ is_open h s = false) ->
    processQueue n s = Hang.
Proof.
  induction n as [|n IH]; intros s C Q W; [reflexivity|].
  simpl. destruct (messageQueue s) as [|m rest] eqn:E; [congruence|].
  rewrite C.
  destruct W as [W|(h & W & O)].
  - rewrite sendMessage_queued by (right; exact W).
    apply IH; simpl; [exact C | now destruct rest | left; exact W].
  - rewrite (sendMessage_failed m _ h) by assumption.
    apply IH; simpl; [exact C | now destruct rest | right; exists h; auto].
Qed.

Lemma processQueue_idle (n : nat) (s : State) :
  isConnected s = false \/ messageQueue s = [] ->
  processQueue (S n) s = Done s.
Proof.
  intros [H|H]; simpl; rewrite H; [|reflexivity].
  now destruct (messageQueue s).
Qed.

(** The bound used by [on_open] is enough: more fuel never changes the
    outcome, so [Hang] there is a loop that does not end. *)
Lemma processQueue_fuel (s : State) (k : nat) :
  processQueue (S (length (messageQueue s)) + k) s
  = processQueue (S (length (messageQueue s))) s.
Proof.
  destruct (isConnected s) eqn:C.
  2:{ cbn [Nat.add]. now rewrite !processQueue_idle by auto. }
  destruct (messageQueue s) as [|m rest] eqn:Q.
  { cbn [length Nat.add]. now rewrite !processQueue_idle by auto. }
  rewrite <- Q.
  destruct (ws s) as [h|] eqn:W.
  - destruct (is_open h s) eqn:O.
    + destruct (processQueue_open h (messageQueue s) s k) as (s1 & R1 & S1 & Q1 & T1); auto.
      destruct (processQueue_open h (messageQueue s) s 0) as (s2 & R2 & S2 & Q2 & T2); auto.
      rewrite Nat.add_0_r in R2. rewrite R1, R2. f_equal.
      destruct S1 as (?&?&?&?&?&?&?&?), S2 as (?&?&?&?&?&?&?&?).
      destruct s1, s2; simpl in *; congruence.
    + rewrite !processQueue_stuck; eauto; congruence.
  - rewrite !processQueue_stuck; eauto; congruence.
Qed.

(** The drain loop never throws, and when it returns it changed only
    the queue and the log. *)
Lemma processQueue_done (s : State) :
  match processQueue (S (length (messageQueue s))) s with
  | Done s' =>
      same_client s s'
      /\ ((s' = s /\ (isConnected s = false \/ messageQueue s = []))
          \/ (exists h, isConnected s = true /\ ws s = Some h /\ is_open h s = true
                        /\ messageQueue s' = []
                        /\ trace s' = trace s ++ drain_log h (messageQueue s)))
  | Threw _ => False
  | Hang => isConnected s = true /\ messageQueue s <> []
            /\ (ws s = None \/ exists h, ws s = Some h /\ is_open h s = false)
  end.
Proof.
  destruct (isConnected s) eqn:C.
  2:{ rewrite processQueue_idle by auto. split; [apply same_client_refl|auto]. }
  destruct (messageQueue s) as [|m rest] eqn:Q.
  { cbn [length]. rewrite processQueue_idle by auto. split; [apply same_client_refl|auto]. }
  rewrite <- Q.
  assert (NE : messageQueue s <> []) by congruence.
  destruct (ws s) as [h|] eqn:W.
  - destruct (is_open h s) eqn:O.
    + destruct (processQueue_open h (messageQueue s) s 0) as (s2 & R2 & S2 & Q2 & T2); auto.
      rewrite Nat.add_0_r in R2. rewrite R2. split; [exact S2|].
      right. exists h. auto.
    + rewrite processQueue_stuck; [|eauto..]. eauto 6.
  - rewrite processQueue_stuck; [|eauto..]. eauto.
Qed.

(** ** Reading the log: basic facts *)

Lemma writes_app (t1 t2 : list Effect) : writes (t1 ++ t2) = writes t1 ++ writes t2.
Proof. apply omap_app. Qed.


Lemma emitted_app (t1 t2 : list Effect) : emitted (t1 ++ t2) = emitted t1 ++ emitted t2.
Proof. apply omap_app. Qed.

Lemma opened_app (t1 t2 : list Effect) : opened (t1 ++ t2) = opened t1 ++ opened t2.
Proof. apply omap_app. Qed.

Lemma writes_drain_log (h : nat) (q : list StreamMessage) :
  writes (drain_log h q) = map (fun m => (h, FMessage m)) q.
Proof.
  induction q as [|m q IH]; [reflexivity|].
  unfold drain_log in *. simpl. now rewrite IH.
Qed.

Lemma wire_same (h : nat) (l : list (nat * Frame)) :
  Forall (fun p => p.1 = h) l ->
  omap (fun p : nat * Frame => if Nat.eqb h p.1 then Some p.2 else None) l = map snd l.
Proof.
  induction 1 as [|[h' f] l E _ IH]; [reflexivity|].
  simpl in *. subst h'. rewrite Nat.eqb_refl. simpl. f_equal. exact IH.
Qed.

Lemma wire_drain_log (h : nat) (q : list StreamMessage) :
  wire h (drain_log h q) = map FMessage q.
Proof.
  unfold wire. rewrite writes_drain_log, wire_same.
  - now rewrite map_map.
  - induction q; constructor; auto.
Qed.




(** ** Socket states under the updates *)

Lemma socket_ready_mark_ready (h h0 : nat) (r : ReadyState) (s : State) :
  socket_ready h (mark_ready h0 r s)
  = if decide (h0 = h) then (fun _ => r) <$> socket_ready h s else socket_ready h s.
Proof.
  unfold socket_ready, mark_ready. simpl.
  destruct (decide (h0 = h)) as [->|N].
  - rewrite list_lookup_alter_eq. now destruct (sockets s !! h).
  - now rewrite list_lookup_alter_ne.
Qed.

Lemma socket_ready_mark_promise (h h0 : nat) (p : PromiseState) (s : State) :
  socket_ready h (mark_promise h0 p s) = socket_ready h s.
Proof.
  unfold socket_ready, mark_promise. simpl.
  destruct (decide (h0 = h)) as [->|N].
  - rewrite list_lookup_alter_eq. now destruct (sockets s !! h).
  - now rewrite list_lookup_alter_ne.
Qed.

Lemma socket_ready_fresh (h : nat) (s : State) :
  (length (sockets s) <= h)%nat -> socket_ready h s = None.
Proof.
  intros L. unfold socket_ready. now rewrite lookup_ge_None_2.
Qed.

Lemma socket_ready_connect (h : nat) (o : Origin) (s : State) :
  socket_ready h (connect o s)
  = if decide (h = length (sockets s)) then Some Connecting else socket_ready h s.
Proof.
  unfold socket_ready, connect. simpl.
  destruct (decide (h = length (sockets s))) as [->|N].
  - rewrite lookup_app_r by lia. now rewrite Nat.sub_diag.
  - destruct (lt_dec h (length (sockets s))) as [L|L].
    + now rewrite lookup_app_l.
    + rewrite !lookup_ge_None_2; [reflexivity|lia|rewrite length_app; simpl; lia].
Qed.

(** ** Settling the promise of a [connect()] call *)

Lemma resolve_spec (h : nat) (s : State) :
  ws (resolve h s) = ws s
  /\ config (resolve h s) = config s
  /\ isConnected (resolve h s) = isConnected s
  /\ messageQueue (resolve h s) = messageQueue s
  /\ reconnectAttempts (resolve h s) = reconnectAttempts s
  /\ maxReconnectAttempts (resolve h s) = maxReconnectAttempts s
  /\ sessionId (resolve h s) = sessionId s
  /\ timers (resolve h s) = timers s
  /\ (forall h', socket_ready h' (resolve h s) = socket_ready h' s)
  /\ trace (resolve h s)
     = trace s ++ (if announces h s then [Emit EvReconnect] else []).
Proof.
  unfold resolve, announces.
  destruct (sockets s !! h) as [k|];
    [|repeat split; auto; symmetry; apply app_nil_r].
  destruct (promise k);
    [|repeat split; auto; symmetry; apply app_nil_r..].
  destruct (origin k); simpl; repeat split; auto;
    try (intros h'; apply socket_ready_mark_promise).
  symmetry; apply app_nil_r.
Qed.



Lemma is_open_ready (h : nat) (s : State) :
  is_open h s = true <-> socket_ready h s = Some Open.
Proof.
  unfold is_open. destruct (socket_ready h s) as [[]|]; split; congruence.
Qed.





(** ** The ['open'] callback, case by case *)

Lemma on_open_spec (h : nat) (s : State) :
  match on_open h s with
  | Done s' =>
      ws s' = ws s /\ isConnected s' = true /\ reconnectAttempts s' = 0
      /\ maxReconnectAttempts s' = maxReconnectAttempts s
      /\ sessionId s' = sessionId s /\ timers s' = timers s
      /\ config s' = config s
      /\ (forall h', socket_ready h' s' = socket_ready h' s)
      /\ exists new,
          trace s' = trace s ++ new
          /\ emitted new
             = map EvSent (messageQueue s)
                 ++ (if announces h s then [EvReconnect] else [])
          /\ ((ws s = None /\ writes new = [] /\ messageQueue s = []
               /\ messageQueue s' = [])
              \/ (exists h0, ws s = Some h0 /\ is_open h0 s = true
                    /\ writes new
                       = (h0, FConfigure (configure_frame (config s)))
                           :: map (fun m => (h0, FMessage m)) (messageQueue s)
                    /\ messageQueue s' = []))
  | Threw s' =>
      s' = set_reconnectAttempts 0 (set_isConnected true s)
      /\ exists h0, ws s = Some h0 /\ is_open h0 s = false
  | Hang => ws s = None /\ messageQueue s <> []
  end.
Proof.
  unfold on_open.
  set (s1 := set_reconnectAttempts 0 (set_isConnected true s)).
  assert (SC : sendConfiguration s1
               = match ws s with
                 | Some h0 =>
                     if is_open h0 s
                     then Done (log (WsSend h0 (FConfigure (configure_frame (config s)))) s1)
                     else Threw s1
                 | None => Done s1
                 end).
  { unfold sendConfiguration, ws_send. simpl. now destruct (ws s). }
  rewrite SC. clear SC.
  destruct (ws s) as [h0|] eqn:W.
  - destruct (is_open h0 s) eqn:O; cbn [bind]; [|split; [reflexivity|eauto]].
    set (s2 := log (WsSend h0 (FConfigure (configure_frame (config s)))) s1).
    pose proof (processQueue_done s2) as D.
    destruct (processQueue (S (length (messageQueue s2))) s2) as [s3| |];
      cbn [bind]; [|destruct D|].
    2:{ destruct D as (_ & _ & [D|(h1 & D1 & D2)]); simpl in *.
        - congruence.
        - change (is_open h1 s2) with (is_open h1 s) in D2. congruence. }
    destruct D as ((E1&E2&E3&E4&E5&E6&E7&E8) & D).
    destruct (resolve_spec h s3) as (R1&Rc&R2&R3&R4&R5&R6&R7&R8&R9).
    assert (RS : forall h', socket_ready h' (resolve h s3) = socket_ready h' s).
    { intros h'. rewrite R8. unfold socket_ready. now rewrite E7. }
    assert (AN : announces h s3 = announces h s).
    { unfold announces. now rewrite E7. }
    simpl in E1, E2, E3, E4, E5, E6, E7, E8.
    repeat (split; [congruence|]).
    rewrite R9, AN.
    destruct D as [(-> & D)|(h1 & _ & D1 & _ & D3 & D4)].
    + destruct D as [D|D]; [discriminate D|]. simpl in D.
      simpl; eexists; (split; [rewrite <- ?app_assoc; reflexivity|]).
      rewrite D. split; [simpl; now destruct (announces h s)|].
      right; exists h0; simpl; repeat split; auto;
        [now destruct (announces h s)|rewrite R3; exact D].
    + simpl in D1, D4. assert (h1 = h0) by congruence. subst h1.
      rewrite D4; simpl; eexists; (split; [rewrite <- ?app_assoc; reflexivity|]).
      split.
      { simpl. rewrite emitted_app. f_equal; [|now destruct (announces h s)].
        clear. induction (messageQueue s) as [|m q IH]; [reflexivity|].
        unfold drain_log in *. simpl. now rewrite IH. }
      right; exists h0; repeat split; auto; try congruence.
      simpl. rewrite writes_app, writes_drain_log.
      destruct (announces h s); simpl; now rewrite app_nil_r.
  - cbn [bind].
    pose proof (processQueue_done s1) as D.
    destruct (processQueue (S (length (messageQueue s1))) s1) as [s3| |];
      cbn [bind]; [|destruct D|destruct D as (_ & D & _); split; [reflexivity|exact D]].
    destruct D as ((E1&E2&E3&E4&E5&E6&E7&E8) & D).
    destruct (resolve_spec h s3) as (R1&Rc&R2&R3&R4&R5&R6&R7&R8&R9).
    assert (RS : forall h', socket_ready h' (resolve h s3) = socket_ready h' s).
    { intros h'. rewrite R8. unfold socket_ready. now rewrite E7. }
    assert (AN : announces h s3 = announces h s).
    { unfold announces. now rewrite E7. }
    simpl in E1, E2, E3, E4, E5, E6, E7, E8.
    repeat (split; [congruence|]).
    rewrite R9, AN.
    destruct D as [(-> & D)|(h1 & _ & D1 & _)]; [|simpl in D1; congruence].
    destruct D as [D|D]; [discriminate D|]. simpl in D.
    simpl. eexists. split; [reflexivity|]. rewrite D.
    split; [simpl; now destruct (announces h s)|].
    left; repeat split; auto; [now destruct (announces h s)|rewrite R3; exact D].
Qed.

(** ** Steps that write nothing *)




















(** ** [wire_inv] holds in every reachable state *)







(** ** Runs, and the queue while the client is not connected *)








(** ** The reconnection counter *)





(** The ['close'] callback while attempts remain. *)
Lemma on_close_schedules (s : State) :
  reconnectAttempts s < maxReconnectAttempts s ->
  on_close s
  = setTimeout ReconnectTimer (2 ^ (reconnectAttempts s + 1) * 1000)
      (set_reconnectAttempts (reconnectAttempts s + 1)
         (emit EvDisconnect (set_isConnected false s))).
Proof.
  intros L. unfold on_close, attemptReconnect. simpl.
  destruct (Z.geb_spec (reconnectAttempts s) (maxReconnectAttempts s)); [lia|reflexivity].
Qed.

(** ... and when none remain. *)
Lemma on_close_gives_up (s : State) :
  maxReconnectAttempts s <= reconnectAttempts s ->
  on_close s = emit EvMaxReconnectReached (emit EvDisconnect (set_isConnected false s)).
Proof.
  intros L. unfold on_close, attemptReconnect. simpl.
  destruct (Z.geb_spec (reconnectAttempts s) (maxReconnectAttempts s)); [reflexivity|lia].
Qed.

Lemma step_close (h : nat) (s : State) :
  can_close h s = true ->
  step (SockClose h) s = Done (on_close (mark_ready h Closed s)).
Proof.
  unfold can_close. simpl. now destruct (socket_ready h s) as [[]|].
Qed.



(** ** Running out of reconnection attempts *)

Lemma run_app (es1 es2 : list Event) :
  forall s, run (es1 ++ es2) s = bind (run es1 s) (run es2).
Proof.
  induction es1 as [|e es1 IH]; intros s; [reflexivity|].
  simpl. destruct (step e s) as [s1|s1|]; auto.
  destruct (is_call e); auto.
Qed.

Lemma backoff_delays_lookup (n : nat) :
  forall (a : Z) (i : nat),
    (i < n)%nat -> backoff_delays a n !! i = Some (2 ^ (a + 1 + Z.of_nat i) * 1000).
Proof.
  induction n as [|n IH]; intros a i L; [lia|].
  destruct i as [|i]; simpl.
  - now rewrite Z.add_0_r.
  - rewrite IH by lia. do 3 f_equal. lia.
Qed.

Lemma count_app {A} (p : A -> bool) (l1 l2 : list A) :
  count p (l1 ++ l2) = (count p l1 + count p l2)%nat.
Proof. unfold count. now rewrite List.filter_app, length_app. Qed.

Lemma failed_attempt (s : State) (l : list Timer) (x : Timer) :
  timers s = l ++ [x] -> kind x = ReconnectTimer -> pending x = true ->
  exists s1,
    run [TimerFire (length l); SockClose (length (sockets s))] s = Done s1
    /\ maxReconnectAttempts s1 = maxReconnectAttempts s
    /\ isConnected s1 = false
    /\ length (sockets s1) = S (length (sockets s))
    /\ ((reconnectAttempts s < maxReconnectAttempts s
         /\ reconnectAttempts s1 = reconnectAttempts s + 1
         /\ timers s1
            = (l ++ [fired x;
                     {| kind := ConnectTimeout (length (sockets s));
                        delay := 10000; pending := true |}])
                ++ [{| kind := ReconnectTimer;
                       delay := 2 ^ (reconnectAttempts s + 1) * 1000;
                       pending := true |}]
         /\ exists new, trace s1 = trace s ++ new
              /\ emitted new = [EvDisconnect]
              /\ reconnect_delays new = [2 ^ (reconnectAttempts s + 1) * 1000])
        \/ (maxReconnectAttempts s <= reconnectAttempts s
            /\ reconnectAttempts s1 = reconnectAttempts s
            /\ timers s1
               = l ++ [fired x;
                       {| kind := ConnectTimeout (length (sockets s));
                          delay := 10000; pending := true |}]
            /\ exists new, trace s1 = trace s ++ new
                 /\ emitted new = [EvDisconnect; EvMaxReconnectReached]
                 /\ reconnect_delays new = [])).
Proof.
  intros T K P.
  assert (L : timers s !! length l = Some x).
  { rewrite T, lookup_app_r by lia. now rewrite Nat.sub_diag. }
  cbn [run step]. rewrite L, P, K.
  set (s0 := on_reconnect_timer (mark_fired (length l) s)).
  assert (G : socket_ready (length (sockets s)) s0 = Some Connecting).
  { unfold s0, on_reconnect_timer. rewrite socket_ready_connect. simpl.
    now destruct (decide _). }
  rewrite G.
  assert (TF : timers s0 = l ++ [fired x;
                     {| kind := ConnectTimeout (length (sockets s));
                        delay := 10000; pending := true |}]).
  { unfold s0. simpl. rewrite T.
    replace (length l) with (length l + 0)%nat at 1 by lia.
    rewrite alter_app_r. simpl. rewrite <- app_assoc. reflexivity. }
  assert (TR : trace s0 = trace s ++ [WsNew (length (sockets s));
                 SetTimeout (S (length l)) 10000 (ConnectTimeout (length (sockets s)))]).
  { unfold s0. simpl. rewrite !length_alter, T, length_app. simpl.
    rewrite <- app_assoc. simpl. do 4 f_equal. lia. }
  assert (A0 : reconnectAttempts s0 = reconnectAttempts s) by reflexivity.
  assert (M0 : maxReconnectAttempts s0 = maxReconnectAttempts s) by reflexivity.
  assert (S0 : length (sockets s0) = S (length (sockets s))).
  { unfold s0. simpl. rewrite length_app. simpl. lia. }
  clearbody s0.
  destruct (Z_lt_le_dec (reconnectAttempts s) (maxReconnectAttempts s)) as [Lt|Ge].
  - rewrite on_close_schedules by (simpl; lia).
    eexists. split; [reflexivity|]. simpl.
    rewrite !length_alter, A0, M0, TF, TR.
    split; [reflexivity|]. split; [reflexivity|]. split; [exact S0|].
    left. split; [exact Lt|]. split; [reflexivity|]. split; [reflexivity|].
    rewrite <- !app_assoc. eexists. split; [reflexivity|]. simpl. auto.
  - rewrite on_close_gives_up by (simpl; lia).
    eexists. split; [reflexivity|]. simpl.
    rewrite !length_alter, A0, M0, TF, TR.
    split; [reflexivity|]. split; [reflexivity|]. split; [exact S0|].
    right. split; [exact Ge|]. split; [reflexivity|]. split; [reflexivity|].
    rewrite <- !app_assoc. eexists. split; [reflexivity|]. simpl. auto.
Qed.

Lemma failed_attempts_run (n : nat) :
  forall (s : State) (l : list Timer) (x : Timer),
    timers s = l ++ [x] -> kind x = ReconnectTimer -> pending x = true ->
    List.filter reconnect_pending l = [] ->
    reconnectAttempts s + Z.of_nat n = maxReconnectAttempts s ->
    exists s' new,
      run (failed_attempts (S n) (length (sockets s)) (length l)) s = Done s'
      /\ trace s' = trace s ++ new
      /\ count is_max_reconnect (emitted new) = 1%nat
      /\ reconnect_delays new = backoff_delays (reconnectAttempts s) n
      /\ List.filter reconnect_pending (timers s') = []
      /\ isConnected s' = false
      /\ reconnectAttempts s' = maxReconnectAttempts s
      /\ maxReconnectAttempts s' = maxReconnectAttempts s.
Proof.
  induction n as [|n IH]; intros s l x T K P F A.
  - rewrite Z.add_0_r in A.
    destruct (failed_attempt s l x T K P) as (s1 & R & M & C & _ & [(Lt & _)|D]); [lia|].
    destruct D as (_ & A1 & T1 & new & Tr & E & D).
    exists s1, new. split; [exact R|]. split; [exact Tr|].
    rewrite E, D, T1, List.filter_app, F. simpl. unfold reconnect_pending at 1. simpl.
    rewrite K. repeat split; auto. lia.
  - destruct (failed_attempt s l x T K P) as (s1 & R & M & C & L & [D|(Ge & _)]); [|lia].
    destruct D as (Lt & A1 & T1 & new & Tr & E & D).
    destruct (IH s1 _ _ T1 eq_refl eq_refl) as (s' & new' & R' & Tr' & E' & D' & F' & C' & A' & M').
    { rewrite List.filter_app, F. simpl. unfold reconnect_pending at 1. simpl.
      now rewrite K. }
    { lia. }
    exists s', (new ++ new').
    change (failed_attempts (S (S n)) (length (sockets s)) (length l))
      with ([TimerFire (length l); SockClose (length (sockets s))]
              ++ failed_attempts (S n) (S (length (sockets s))) (S (S (length l)))).
    rewrite run_app, R. cbn [bind].
    rewrite L, length_app in R'. simpl in R'.
    replace (length l + 2)%nat with (S (S (length l))) in R' by lia.
    split; [exact R'|].
    split; [rewrite Tr', Tr; now rewrite app_assoc|].
    rewrite emitted_app, count_app, E, E'.
    unfold reconnect_delays in *. rewrite omap_app, D, D', A1.
    repeat split; auto; congruence.
Qed.

Lemma connect_then_open (s : State) :
  exists s2,
    run [CallConnect; SockOpen (length (sockets s))] s = Done s2
    /\ isConnected s2 = true /\ reconnectAttempts s2 = 0
    /\ ws s2 = Some (length (sockets s))
    /\ socket_ready (length (sockets s)) s = None
    /\ is_open (length (sockets s)) s2 = true.
Proof.
  cbn [run step].
  assert (G : socket_ready (length (sockets s)) (connect ByCaller s) = Some Connecting).
  { rewrite socket_ready_connect. now destruct (decide _). }
  rewrite G.
  set (s1 := mark_ready (length (sockets s)) Open (connect ByCaller s)).
  assert (O : is_open (length (sockets s)) s1 = true).
  { apply is_open_ready. unfold s1. rewrite socket_ready_mark_ready, G.
    now destruct (decide _). }
  pose proof (on_open_spec (length (sockets s)) s1) as S.
  destruct (on_open (length (sockets s)) s1) as [s2| |].
  - destruct S as (W & C & A & _ & _ & _ & _ & R & _).
    exists s2. repeat split; auto.
    + now apply socket_ready_fresh.
    + unfold is_open in *. now rewrite R.
  - destruct S as (_ & h0 & W0 & O0). simpl in W0. congruence.
  - destruct S as (W0 & _). discriminate W0.
Qed.

(** C3 (as amended). When the connection closes with the counter at 0
    and each of the [N = maxReconnectAttempts] reconnection attempts
    that follow fails (the new socket closes without opening), the
    client schedules the [N] attempts with the delays [2^k * 1000],
    raises ['max_reconnect_reached'] once, at the last close, and is
    left disconnected with no reconnection pending.  That state is not
    terminal: a [connect()] call then opens a new connection, and its
    success resets the counter. *)
Theorem reconnect_budget_exhausted (N : nat) (s : State) (h0 : nat) :
  maxReconnectAttempts s = Z.of_nat N ->
  reconnectAttempts s = 0 ->
  can_close h0 s = true ->
  List.filter reconnect_pending (timers s) = [] ->
  exists s' new,
    run (SockClose h0 :: failed_attempts N (length (sockets s)) (length (timers s))) s
    = Done s'
    /\ trace s' = trace s ++ new
    /\ count is_max_reconnect (emitted new) = 1%nat
    /\ reconnect_delays new = backoff_delays 0 N
    /\ List.filter reconnect_pending (timers s') = []
    /\ isConnected s' = false
    /\ reconnectAttempts s' = Z.of_nat N
    /\ exists s2,
        run [CallConnect; SockOpen (length (sockets s'))] s' = Done s2
        /\ isConnected s2 = true /\ reconnectAttempts s2 = 0
        /\ ws s2 = Some (length (sockets s'))
        /\ socket_ready (length (sockets s')) s' = None
        /\ is_open (length (sockets s')) s2 = true.
Proof.
  intros M A C F.
  change (SockClose h0 :: failed_attempts N (length (sockets s)) (length (timers s)))
    with ([SockClose h0] ++ failed_attempts N (length (sockets s)) (length (timers s))).
  rewrite run_app. cbn [run]. rewrite (step_close h0 s C). cbn [bind].
  destruct N as [|n].
  - rewrite on_close_gives_up by (simpl; lia).
    set (s' := emit EvMaxReconnectReached _).
    exists s', [Emit EvDisconnect; Emit EvMaxReconnectReached].
    split; [reflexivity|].
    split; [unfold s'; simpl; now rewrite <- app_assoc|].
    split; [reflexivity|]. split; [reflexivity|].
    split; [exact F|]. split; [reflexivity|].
    split; [exact A|]. apply connect_then_open.
  - rewrite on_close_schedules by (simpl; lia).
    set (s0 := setTimeout _ _ _).
    destruct (failed_attempts_run n s0 (timers s)
                {| kind := ReconnectTimer;
                   delay := 2 ^ (reconnectAttempts s + 1) * 1000; pending := true |})
      as (s' & new & R & T & E & D & F' & C' & A' & M'); auto.
    { unfold s0. simpl. rewrite A. lia. }
    assert (L : length (sockets s0) = length (sockets s))
      by (unfold s0; simpl; apply length_alter).
    rewrite L in R.
    exists s', ([Emit EvDisconnect;
                 SetTimeout (length (timers s)) (2 ^ (reconnectAttempts s + 1) * 1000)
                            ReconnectTimer] ++ new).
    split; [exact R|].
    split; [rewrite T; unfold s0; simpl; now rewrite <- !app_assoc|].
    split; [exact E|].
    split.
    { unfold reconnect_delays in *. rewrite omap_app, D. unfold s0. simpl.
      now rewrite A. }
    split; [exact F'|]. split; [exact C'|].
    split; [rewrite A'; unfold s0; simpl; exact M|].
    apply connect_then_open.
Qed.

Lemma reconnect_budget_exhausted_witness :
  maxReconnectAttempts established = Z.of_nat 3
  /\ reconnectAttempts established = 0
  /\ can_close 0 established = true
  /\ List.filter reconnect_pending (timers established) = []
  /\ exists s' new,
      run (SockClose 0 :: failed_attempts 3 1 1) established = Done s'
      /\ trace s' = trace established ++ new
      /\ count is_max_reconnect (emitted new) = 1%nat
      /\ reconnect_delays new = [2000; 4000; 8000].
Proof.
  repeat (split; [reflexivity|]).
  destruct (reconnect_budget_exhausted 3 established 0)
    as (s' & new & R & T & E & D & _); try reflexivity.
  exists s', new. repeat split; assumption.
Defined.

(** C3 as stated fails.  With [maxReconnectAttempts = 3], after three
    closes in a row no ['max_reconnect_reached'] has been raised and
    the third attempt is still pending; and after the event has been
    raised (at the fourth close) the client is not in a terminal
    state: [connect()] and an open make it connected again with the
    counter at 0, and the next close schedules a reconnection. *)
Lemma max_reconnect_not_terminal :
  maxReconnectAttempts established = 3
  /\ count is_max_reconnect (emitted (trace (after three_closes established))) = 0%nat
  /\ List.filter reconnect_pending (timers (after three_closes established))
     = [{| kind := ReconnectTimer; delay := 8000; pending := true |}]
  /\ count is_max_reconnect (emitted (trace (after outage established))) = 1%nat
  /\ isConnected (after (outage ++ [CallConnect; SockOpen 4]) established) = true
  /\ reconnectAttempts (after (outage ++ [CallConnect; SockOpen 4]) established) = 0
  /\ List.filter reconnect_pending
       (timers (after (outage ++ [CallConnect; SockOpen 4; SockClose 4]) established))
     = [{| kind := ReconnectTimer; delay := 2000; pending := true |}].
Proof. repeat split; vm_compute; reflexivity. Qed.

(** ** Connecting, and what the close of a socket sets off *)

(** After [connect()], the open of the new socket makes the client
    connected: the configuration frame and then the queue are written
    to it, and ['reconnect'] is raised if the reconnection timer made
    the call. *)
Lemma open_after_connect (o : Origin) (s : State) :
  exists s' new,
    step (SockOpen (length (sockets s))) (connect o s) = Done s'
    /\ isConnected s' = true /\ reconnectAttempts s' = 0
    /\ ws s' = Some (length (sockets s))
    /\ is_open (length (sockets s)) s' = true
    /\ sessionId s' = sessionId s
    /\ messageQueue s' = []
    /\ trace s' = trace (connect o s) ++ new
    /\ writes new
       = (length (sockets s), FConfigure (configure_frame (config s)))
           :: map (fun m => (length (sockets s), FMessage m)) (messageQueue s)
    /\ emitted new
       = map EvSent (messageQueue s)
           ++ match o with ByReconnect => [EvReconnect] | ByCaller => [] end.
Proof.
  assert (G : socket_ready (length (sockets s)) (connect o s) = Some Connecting).
  { rewrite socket_ready_connect. now destruct (decide _). }
  cbn [step]. rewrite G.
  set (s1 := mark_ready (length (sockets s)) Open (connect o s)).
  assert (O : is_open (length (sockets s)) s1 = true).
  { apply is_open_ready. unfold s1. rewrite socket_ready_mark_ready, G.
    now destruct (decide _). }
  assert (AN : announces (length (sockets s)) s1
               = match o with ByReconnect => true | ByCaller => false end).
  { unfold announces, s1. simpl. rewrite list_lookup_alter_eq.
    rewrite lookup_app_r by lia. rewrite Nat.sub_diag. simpl. now destruct o. }
  pose proof (on_open_spec (length (sockets s)) s1) as S.
  destruct (on_open (length (sockets s)) s1) as [s2| |].
  - destruct S as (W & C & A & _ & I & _ & _ & R & new & T & E & S).
    destruct S as [(W0 & _)|(h0 & W0 & _ & Z & Q)]; [discriminate W0|].
    simpl in W0. assert (h0 = length (sockets s)) by congruence. subst h0.
    exists s2, new. repeat split; auto.
    + unfold is_open in *. now rewrite R.
    + rewrite E, AN. simpl. now destruct o.
  - destruct S as (_ & h0 & W0 & O0). simpl in W0. congruence.
  - destruct S as (W0 & _). discriminate W0.
Qed.

Lemma step_reconnect_timer (t : nat) (x : Timer) (s : State) :
  timers s !! t = Some x -> kind x = ReconnectTimer -> pending x = true ->
  step (TimerFire t) s = Done (connect ByReconnect (mark_fired t s)).
Proof. intros L K P. simpl. now rewrite L, P, K. Qed.

Lemma is_open_lookup (h : nat) (s : State) :
  is_open h s = true -> exists k, sockets s !! h = Some k /\ ready k = Open.
Proof.
  unfold is_open, socket_ready. destruct (sockets s !! h) as [k|]; [|discriminate].
  simpl. destruct (ready k) eqn:E; try discriminate. eauto.
Qed.

Lemma disconnect_fields (s : State) :
  timers (disconnect s) = timers s
  /\ length (sockets (disconnect s)) = length (sockets s)
  /\ reconnectAttempts (disconnect s) = reconnectAttempts s
  /\ maxReconnectAttempts (disconnect s) = maxReconnectAttempts s
  /\ config (disconnect s) = config s
  /\ sessionId (disconnect s) = None
  /\ messageQueue (disconnect s) = []
  /\ emitted (trace (disconnect s)) = emitted (trace s)
  /\ opened (trace (disconnect s)) = opened (trace s)
  /\ writes (trace (disconnect s)) = writes (trace s).
Proof.
  unfold disconnect. destruct (ws s) as [h|]; simpl; [|repeat split].
  unfold ws_close. simpl.
  destruct (sockets s !! h) as [k|]; [|repeat split].
  destruct (ready k); simpl; rewrite ?length_alter, ?emitted_app, ?opened_app, ?writes_app;
    simpl; rewrite ?app_nil_r; repeat split.
Qed.

Lemma disconnect_open (s : State) (h : nat) :
  ws s = Some h -> is_open h s = true ->
  disconnect s
  = set_messageQueue []
      (set_sessionId None
         (set_ws None
            (log (WsClose h) (mark_ready h Closing (set_isConnected false s))))).
Proof.
  intros W O. apply is_open_lookup in O as (k & L & K).
  unfold disconnect, ws_close. rewrite W. simpl. now rewrite L, K.
Qed.

(** C2 (as amended). The client does not tell a close it asked for from
    an unexpected one.  [disconnect()] itself schedules nothing; but
    when the transport reports the close of the socket it closed, the
    same ['close'] callback runs as for any close: it raises
    ['disconnect'] and calls [attemptReconnect], which, while attempts
    remain, sets the reconnection timer.  When that timer fires a new
    socket is created, and when it opens the client is connected again
    and raises ['reconnect']. *)
Theorem disconnect_close_starts_reconnection (s : State) (h : nat) :
  ws s = Some h -> is_open h s = true ->
  reconnectAttempts s < maxReconnectAttempts s ->
  exists s1 s2 s3 s4 new,
    step CallDisconnect s = Done s1
    /\ timers s1 = timers s /\ ws s1 = None /\ isConnected s1 = false
    /\ socket_ready h s1 = Some Closing
    /\ step (SockClose h) s = Done (on_close (mark_ready h Closed s))
    /\ step (SockClose h) s1 = Done s2
    /\ s2 = on_close (mark_ready h Closed s1)
    /\ timers s2
       = timers s ++ [{| kind := ReconnectTimer;
                         delay := 2 ^ (reconnectAttempts s + 1) * 1000;
                         pending := true |}]
    /\ step (TimerFire (length (timers s))) s2 = Done s3
    /\ opened (trace s3) = opened (trace s) ++ [length (sockets s)]
    /\ step (SockOpen (length (sockets s))) s3 = Done s4
    /\ isConnected s4 = true
    /\ trace s4 = trace s3 ++ new
    /\ emitted new = [EvReconnect]
    /\ writes new = [(length (sockets s), FConfigure (configure_frame (config s)))].
Proof.
  intros W O A.
  pose proof (disconnect_open s h W O) as D.
  destruct (is_open_lookup h s O) as (k & L & K).
  remember (disconnect s) as s1 eqn:Hs1.
  assert (R1 : socket_ready h s1 = Some Closing).
  { rewrite D. unfold socket_ready. simpl. rewrite list_lookup_alter_eq, L. reflexivity. }
  assert (C1 : can_close h s1 = true) by (unfold can_close; now rewrite R1).
  assert (C0 : can_close h s = true).
  { unfold can_close, socket_ready. now rewrite L; simpl; rewrite K. }
  assert (A1 : reconnectAttempts s1 = reconnectAttempts s) by now rewrite D.
  assert (M1 : maxReconnectAttempts s1 = maxReconnectAttempts s) by now rewrite D.
  assert (T1 : timers s1 = timers s) by now rewrite D.
  remember (on_close (mark_ready h Closed s1)) as s2 eqn:Hs2.
  assert (E2 : s2 = setTimeout ReconnectTimer (2 ^ (reconnectAttempts s + 1) * 1000)
                      (set_reconnectAttempts (reconnectAttempts s + 1)
                         (emit EvDisconnect
                            (set_isConnected false (mark_ready h Closed s1))))).
  { rewrite Hs2, on_close_schedules by (simpl; lia). simpl. now rewrite A1. }
  assert (T2 : timers s2
               = timers s ++ [{| kind := ReconnectTimer;
                                 delay := 2 ^ (reconnectAttempts s + 1) * 1000;
                                 pending := true |}]).
  { rewrite E2. simpl. now rewrite T1. }
  set (s3 := connect ByReconnect (mark_fired (length (timers s)) s2)).
  assert (F3 : step (TimerFire (length (timers s))) s2 = Done s3).
  { apply (step_reconnect_timer _ {| kind := ReconnectTimer;
                                     delay := 2 ^ (reconnectAttempts s + 1) * 1000;
                                     pending := true |}); [|reflexivity..].
    rewrite T2, lookup_app_r by lia. now rewrite Nat.sub_diag. }
  assert (L3 : length (sockets (mark_fired (length (timers s)) s2)) = length (sockets s)).
  { rewrite E2, D. simpl. now rewrite !length_alter. }
  destruct (open_after_connect ByReconnect (mark_fired (length (timers s)) s2))
    as (s4 & new & S4 & C4 & _ & _ & _ & _ & _ & T4 & Z4 & E4).
  fold s3 in S4, T4. rewrite L3 in S4, Z4.
  assert (Q3 : messageQueue (mark_fired (length (timers s)) s2) = [])
    by (rewrite E2, D; reflexivity).
  assert (G3 : config (mark_fired (length (timers s)) s2) = config s)
    by (rewrite E2, D; reflexivity).
  rewrite Q3 in Z4, E4. rewrite G3 in Z4.
  exists s1, s2, s3, s4, new.
  repeat split; auto.
  - simpl. now rewrite Hs1.
  - now rewrite D.
  - now rewrite D.
  - now apply step_close.
  - rewrite Hs2. now apply step_close.
  - unfold s3. simpl in L3. simpl. rewrite L3, !opened_app. simpl.
    rewrite E2. simpl. rewrite !opened_app. simpl. rewrite !app_nil_r.
    f_equal. rewrite Hs1. apply disconnect_fields.
Qed.

Lemma disconnect_close_starts_reconnection_witness :
  ws established = Some 0%nat /\ is_open 0 established = true
  /\ reconnectAttempts established < maxReconnectAttempts established
  /\ exists s1 s2 s3 s4,
      step CallDisconnect established = Done s1
      /\ step (SockClose 0) s1 = Done s2
      /\ step (TimerFire 1) s2 = Done s3
      /\ step (SockOpen 1) s3 = Done s4
      /\ isConnected s4 = true.
Proof.
  split; [reflexivity|]. split; [reflexivity|]. split; [reflexivity|].
  destruct (disconnect_close_starts_reconnection established 0)
    as (s1 & s2 & s3 & s4 & new & H1 & _ & _ & _ & _ & _ & H2 & _ & _ & H3 & _ & H4 & H5 & _);
    try reflexivity.
  exists s1, s2, s3, s4. repeat split; assumption.
Defined.

(** C2 as stated fails: after [disconnect()] on an established
    connection, the close of that socket sets the 2 second reconnection
    timer; it fires, a second socket is created, and when it opens the
    client is connected again and has raised ['reconnect']. *)
Lemma disconnect_is_followed_by_reconnection :
  let s := after [CallDisconnect; SockClose 0; TimerFire 1; SockOpen 1] established in
  List.filter reconnect_pending
    (timers (after [CallDisconnect; SockClose 0] established))
  = [{| kind := ReconnectTimer; delay := 2000; pending := true |}]
  /\ opened (trace s) = [0%nat; 1%nat]
  /\ isConnected s = true
  /\ count is_reconnect (emitted (trace s)) = 1%nat.
Proof. repeat split; vm_compute; reflexivity. Qed.

(** C5 (as amended). [disconnect()] does not cancel a reconnection
    that is already scheduled: the timer stays pending, and when it
    fires [connect()] runs, creating a new socket that becomes the
    current one; when that socket opens the client is connected, has
    sent its configuration frame and raises ['reconnect']. *)
Theorem disconnect_keeps_reconnect_timer (s : State) (t : nat) (x : Timer) :
  timers s !! t = Some x -> kind x = ReconnectTimer -> pending x = true ->
  exists s1 s2 s3 new,
    step CallDisconnect s = Done s1
    /\ timers s1 = timers s
    /\ step (TimerFire t) s1 = Done s2
    /\ s2 = on_reconnect_timer (mark_fired t s1)
    /\ opened (trace s2) = opened (trace s) ++ [length (sockets s)]
    /\ ws s2 = Some (length (sockets s))
    /\ step (SockOpen (length (sockets s))) s2 = Done s3
    /\ isConnected s3 = true
    /\ trace s3 = trace s2 ++ new
    /\ emitted new = [EvReconnect]
    /\ writes new = [(length (sockets s), FConfigure (configure_frame (config s)))].
Proof.
  intros L K P.
  destruct (disconnect_fields s) as (T1 & L1 & _ & _ & G1 & _ & Q1 & _ & O1 & _).
  remember (disconnect s) as s1 eqn:Hs1.
  destruct (open_after_connect ByReconnect (mark_fired t s1))
    as (s3 & new & S3 & C3 & _ & _ & _ & _ & _ & T3 & Z3 & E3).
  change (length (sockets (mark_fired t s1))) with (length (sockets s1)) in S3, Z3.
  change (messageQueue (mark_fired t s1)) with (messageQueue s1) in Z3, E3.
  change (config (mark_fired t s1)) with (config s1) in Z3.
  rewrite L1 in S3, Z3. rewrite Q1 in Z3, E3. rewrite G1 in Z3.
  exists s1, (on_reconnect_timer (mark_fired t s1)), s3, new.
  repeat split; auto.
  - simpl. now rewrite Hs1.
  - apply (step_reconnect_timer t x); auto. now rewrite T1.
  - unfold on_reconnect_timer. simpl. rewrite !opened_app. simpl.
    now rewrite app_nil_r, L1, O1.
  - unfold on_reconnect_timer. simpl. now rewrite L1.
Qed.

Lemma disconnect_keeps_reconnect_timer_witness :
  timers backing_off !! 1%nat
  = Some {| kind := ReconnectTimer; delay := 2000; pending := true |}
  /\ exists s1 s2 s3,
      step CallDisconnect backing_off = Done s1
      /\ step (TimerFire 1) s1 = Done s2
      /\ ws s2 = Some 1%nat
      /\ step (SockOpen 1) s2 = Done s3
      /\ isConnected s3 = true.
Proof.
  split; [reflexivity|].
  destruct (disconnect_keeps_reconnect_timer backing_off 1
              {| kind := ReconnectTimer; delay := 2000; pending := true |})
    as (s1 & s2 & s3 & new & H1 & _ & H2 & _ & _ & H3 & H4 & H5 & _);
    try reflexivity.
  exists s1, s2, s3. repeat split; assumption.
Defined.

(** C5 as stated fails: with the 2 second reconnection pending,
    [disconnect()] is called; the timer still fires, [connect()]
    creates socket 1, and when it opens the client is connected. *)
Lemma pending_reconnection_survives_disconnect :
  List.filter reconnect_pending (timers (after [CallDisconnect] backing_off))
  = [{| kind := ReconnectTimer; delay := 2000; pending := true |}]
  /\ opened (trace (after [CallDisconnect] backing_off)) = [0%nat]
  /\ opened (trace (after [CallDisconnect; TimerFire 1] backing_off)) = [0%nat; 1%nat]
  /\ socket_ready 1 (after [CallDisconnect; TimerFire 1] backing_off) = Some Connecting
  /\ isConnected (after [CallDisconnect; TimerFire 1; SockOpen 1] backing_off) = true.
Proof. repeat split; vm_compute; reflexivity. Qed.

(** ** Calling [connect()] again *)

(** C8 (as amended). [connect()] is not idempotent: in every state a
    call creates one more socket and makes it the current one.  The
    sockets created before keep their state (none is closed) and the
    connected flag is not touched, so a socket that was current stays
    alive with its callbacks attached. *)
Theorem connect_always_opens_a_socket (s : State) :
  step CallConnect s = Done (connect ByCaller s)
  /\ opened (trace (connect ByCaller s)) = opened (trace s) ++ [length (sockets s)]
  /\ length (sockets (connect ByCaller s)) = S (length (sockets s))
  /\ ws (connect ByCaller s) = Some (length (sockets s))
  /\ socket_ready (length (sockets s)) (connect ByCaller s) = Some Connecting
  /\ (forall h, (h < length (sockets s))%nat ->
                socket_ready h (connect ByCaller s) = socket_ready h s)
  /\ isConnected (connect ByCaller s) = isConnected s.
Proof.
  split; [reflexivity|]. split.
  { simpl. rewrite !opened_app. simpl. now rewrite app_nil_r. }
  split; [simpl; rewrite length_app; simpl; lia|].
  split; [reflexivity|].
  split; [rewrite socket_ready_connect; now destruct (decide _)|].
  split; [|reflexivity].
  intros h L. rewrite socket_ready_connect. destruct (decide _); [lia|reflexivity].
Qed.

(** C8 as stated fails: [connect()] on the established client creates
    a second socket and makes it current although socket 0 is open; and
    two calls in a row, before anything opens, create two sockets. *)
Lemma connect_twice_opens_two_sockets :
  isConnected established = true /\ is_open 0 established = true
  /\ opened (trace (after [CallConnect] established)) = [0%nat; 1%nat]
  /\ ws (after [CallConnect] established) = Some 1%nat
  /\ is_open 0 (after [CallConnect] established) = true
  /\ opened (trace (after [CallConnect; CallConnect] (constructor sample_config)))
     = [0%nat; 1%nat].
Proof. repeat split; vm_compute; reflexivity. Qed.

(** ** A write that fails *)

Lemma step_send (e : Event) (m : StreamMessage) (s : State) :
  message_of (session_stamp s) e = Some m -> step e s = sendMessage m s.
Proof.
  intros M. destruct e; simpl in M; inversion M; reflexivity.
Qed.

(** C6 (as amended). When the write of a message submitted by a send
    call fails, the message is put at the back of the queue and the
    error is rethrown to the caller: nothing is written, the message is
    not lost, it stays behind the messages queued before it, and a
    message that fails after it is queued behind it. *)
Theorem failed_write_requeues_at_back
    (e e' : Event) (m m' : StreamMessage) (s : State) (h : nat) :
  isConnected s = true -> ws s = Some h -> is_open h s = false ->
  message_of (session_stamp s) e = Some m ->
  message_of (session_stamp s) e' = Some m' ->
  exists s1 s2,
    step e s = Threw s1
    /\ messageQueue s1 = messageQueue s ++ [m]
    /\ trace s1 = trace s
    /\ same_client s s1
    /\ step e' s1 = Threw s2
    /\ messageQueue s2 = messageQueue s ++ [m; m']
    /\ trace s2 = trace s.
Proof.
  intros C W O M M'.
  set (s1 := set_messageQueue (messageQueue s ++ [m]) s).
  exists s1, (set_messageQueue (messageQueue s1 ++ [m']) s1).
  split; [rewrite (step_send e m s M); now apply (sendMessage_failed m s h)|].
  split; [reflexivity|]. split; [reflexivity|]. split; [repeat split|].
  split; [rewrite (step_send e' m' s1 M'); now apply (sendMessage_failed m' s1 h)|].
  split; [|reflexivity].
  simpl. now rewrite <- app_assoc.
Qed.

Lemma failed_write_requeues_at_back_witness :
  isConnected reconnecting_by_hand = true
  /\ ws reconnecting_by_hand = Some 1%nat
  /\ is_open 1 reconnecting_by_hand = false
  /\ exists s1 s2,
      step (CallSendText "a" 1) reconnecting_by_hand = Threw s1
      /\ step (CallFunction "lookup" "{}" 2) s1 = Threw s2
      /\ map type (messageQueue s2) = [text; function_call].
Proof.
  repeat (split; [reflexivity|]).
  destruct (failed_write_requeues_at_back
              (CallSendText "a" 1) (CallFunction "lookup" "{}" 2)
              (text_message "a" 1 None)
              {| type := function_call; data := CallData "lookup" "{}";
                 timestamp := 2; msg_sessionId := None |}
              reconnecting_by_hand 1)
    as (s1 & s2 & H1 & _ & _ & _ & H2 & H3 & _); try reflexivity.
  exists s1, s2. split; [exact H1|]. split; [exact H2|]. now rewrite H3.
Defined.

(** C6 as stated fails: with message [a] already in the queue, the
    write of [b] fails and [b] is put behind [a], not in front of it. *)
Lemma failed_write_goes_to_back_of_queue :
  let s := after [CallSendText "a" 1] reconnecting_by_hand in
  messageQueue s = [text_message "a" 1 None]
  /\ exists s',
      step (CallSendText "b" 2) s = Threw s'
      /\ messageQueue s' = [text_message "a" 1 None; text_message "b" 2 None]
      /\ messageQueue s' <> [text_message "b" 2 None; text_message "a" 1 None].
Proof.
  split; [vm_compute; reflexivity|].
  eexists. split; [vm_compute; reflexivity|].
  split; [reflexivity|]. discriminate.
Qed.

(** ** [interrupt()] *)








(** ** The session id *)

Lemma dispatch_event_not_session (m : InMessage) : is_session (dispatch_event m) = false.
Proof.
  unfold dispatch_event. destruct (in_type m) as [t|]; [|reflexivity].
  repeat match goal with
         | |- context [match ?x with _ => _ end] => destruct x
         end; reflexivity.
Qed.

(** The first frame that carries a session id while none is set sets it
    and raises ['session'] once. *)
Lemma handleMessage_adopts (m : InMessage) (sid : string) (s : State) :
  sessionId s = None -> in_sessionId m = Some sid -> string_falsy sid = false ->
  sessionId (handleMessage (Parsed m) s) = Some sid
  /\ exists new, trace (handleMessage (Parsed m) s) = trace s ++ new
                 /\ sessions new = [EvSession sid].
Proof.
  intros N I F. unfold handleMessage, dispatch, adopt_session, session_stamp.
  rewrite I, F, N. simpl. split; [reflexivity|].
  eexists. split; [rewrite <- app_assoc; reflexivity|].
  unfold sessions. simpl. now rewrite dispatch_event_not_session.
Qed.

(** Once a session id is set, inbound frames neither change it nor
    raise ['session'], whatever id they carry. *)
Lemma handleMessage_keeps (d : Inbound) (sid : string) (s : State) :
  sessionId s = Some sid -> string_falsy sid = false ->
  sessionId (handleMessage d s) = Some sid
  /\ exists new, trace (handleMessage d s) = trace s ++ new /\ sessions new = [].
Proof.
  intros N F. destruct d as [|m].
  - simpl. split; [exact N|]. now exists [Emit (EvError ParseError)].
  - assert (A : adopt_session m s = s).
    { unfold adopt_session, session_stamp. rewrite N, F.
      destruct (in_sessionId m) as [x|]; [|reflexivity]. now destruct (string_falsy x). }
    unfold handleMessage, dispatch. rewrite A. simpl. split; [exact N|].
    eexists. split; [reflexivity|].
    unfold sessions. simpl. now rewrite dispatch_event_not_session.
Qed.

(** The ['close'] callback leaves the session id as it is; only
    [disconnect()] clears it. *)
Lemma on_close_keeps_session (s : State) : sessionId (on_close s) = sessionId s.
Proof.
  unfold on_close, attemptReconnect. now destruct (_ >=? _).
Qed.

Lemma disconnect_clears_session (s : State) : sessionId (disconnect s) = None.
Proof. apply disconnect_fields. Qed.

(** C7, on the code.  The first connection is assigned ["session-1"];
    the connection then drops and is re-established, and the new
    session's first frame carries ["session-2"].  The client keeps
    ["session-1"], raises no second ['session'] event, and stamps what
    it sends next with the old id.  Had the application called
    [disconnect()] before the close, the id would have been cleared and
    ["session-2"] adopted. *)
Lemma session_id_survives_unexpected_close :
  let assigned :=
    after [SockMessage 0 (frame_of_session "session-1" "hi")] established in
  sessionId assigned = Some "session-1"
  /\ sessions (trace assigned) = [EvSession "session-1"]
  /\ sessionId (after [SockClose 0] assigned) = Some "session-1"
  /\ sessionId (after resumed assigned) = Some "session-1"
  /\ sessions (trace (after resumed assigned)) = [EvSession "session-1"]
  /\ last (writes (trace (after (resumed ++ [CallSendText "ping" 9]) assigned)))
     = Some (1%nat, FMessage (text_message "ping" 9 (Some "session-1")))
  /\ sessionId (after (CallDisconnect :: resumed) assigned) = Some "session-2"
  /\ sessions (trace (after (CallDisconnect :: resumed) assigned))
     = [EvSession "session-1"; EvSession "session-2"].
Proof. repeat split; vm_compute; reflexivity. Qed.
